(** * Trial activation page: eligibility gate and start-trial handler

  A shallow embedding of [frontend/src/app/activate-trial/page.tsx]:
  the [useEffect] that redirects entitled or trial-exhausted accounts,
  the render branch on [isLoading], and the async click handler
  [handleStartTrial] with its [try]/[catch]. *)

From Stdlib Require Import String Ascii List Bool Arith NArith Lia.
Import ListNotations.

Local Open Scope string_scope.
Local Open Scope list_scope.

(** ** JavaScript values as the page reads them *)

Module JS.

(** [v === 'lit'] where [v : string | undefined]. *)
Definition strictEq (v : option string) (lit : string) : bool :=
  match v with
  | Some s => String.eqb s lit
  | None => false
  end.

(** [s !== 'lit'] on a string. *)
Definition strictNe (s lit : string) : bool := negb (String.eqb s lit).

(** Truthiness of a [string | undefined]: the empty string and
    [undefined] are falsy. *)
Definition truthy (v : option string) : bool :=
  match v with
  | Some s => negb (String.eqb s "")
  | None => false
  end.

(** [v || fallback] on a [string | undefined] left operand. *)
Definition orElse (v : option string) (fallback : string) : string :=
  match v with
  | Some s => if String.eqb s "" then fallback else s
  | None => fallback
  end.

End JS.

(** ** Billing snapshots returned by the two queries *)

Module Billing.

(** [subscription.tier], an object carrying [name], or null. *)
Record Tier := { name : string }.

Record Subscription := { tier : option Tier }.

(** [trial_status] is a string of the trial service, or absent. *)
Record TrialStatus := {
  has_trial : bool;
  trial_status : option string
}.

End Billing.

(** ** Observable effects of the page *)

Module Effects.

Record ActivationRequest := {
  success_url : string;
  cancel_url : string
}.

(** The resolved value of [mutateAsync]; only [checkout_url] is read. *)
Record ActivationResult := { checkout_url : option string }.

(** A caught value ([error: any]); only [error?.message] is read.
    [None] stands for a nullish value or one without a message. *)
Record Thrown := { message : option string }.

Inductive Event :=
| RouterPush (path : string)                  (* router.push(path) *)
| StartTrialRequest (req : ActivationRequest) (* mutateAsync(req) called *)
| HrefAssign (url : string)                   (* window.location.href = url *)
| ConsoleError (label : string) (error : Thrown)
| ToastError (text : string).

Definition isRequest (e : Event) : bool :=
  match e with StartTrialRequest _ => true | _ => false end.

Definition isNavigation (e : Event) : bool :=
  match e with RouterPush _ | HrefAssign _ => true | _ => false end.

Definition isNotification (e : Event) : bool :=
  match e with ToastError _ => true | _ => false end.

Definition requests (tr : list Event) : list Event := filter isRequest tr.
Definition navigations (tr : list Event) : list Event := filter isNavigation tr.
Definition notifications (tr : list Event) : list Event := filter isNotification tr.

End Effects.

(** ** The gate: [useEffect] and the render branch *)

Module Gate.
Import Billing Effects.

(** What the three hooks hand to one render of the component. *)
Record Hooks := {
  subscription : option Subscription;
  isLoadingSubscription : bool;
  trialStatus : option TrialStatus;
  isLoadingTrial : bool;
  isPending : bool          (* startTrialMutation.isPending *)
}.

Definition hasActiveTrial (ts : TrialStatus) : bool :=
  has_trial ts && JS.strictEq (trial_status ts) "active".

Definition hasUsedTrial (ts : TrialStatus) : bool :=
  JS.strictEq (trial_status ts) "used" ||
  JS.strictEq (trial_status ts) "expired" ||
  JS.strictEq (trial_status ts) "cancelled" ||
  JS.strictEq (trial_status ts) "converted".

(** [tier && tier.name !== 'none' && tier.name !== 'free'], as the
    truth value the following [if] tests. *)
Definition hasActiveSubscription (sub : Subscription) : bool :=
  match tier sub with
  | Some t => JS.strictNe (name t) "none" && JS.strictNe (name t) "free"
  | None => false
  end.

(** The body of the [useEffect]: the router calls of one run. *)
Definition gateEffect (h : Hooks) : list Event :=
  if negb (isLoadingSubscription h) && negb (isLoadingTrial h) then
    match subscription h, trialStatus h with
    | Some sub, Some ts =>
        if hasActiveTrial ts || hasActiveSubscription sub then
          [RouterPush "/dashboard"]
        else if hasUsedTrial ts then
          [RouterPush "/subscription"]
        else []
    | _, _ => []
    end
  else [].

(** What the component returns: the skeleton card, or the trial offer
    with its start button ([disabled] as given). *)
Inductive View :=
| Skeleton
| TrialOffer (disabled : bool).

Definition isLoading (h : Hooks) : bool :=
  isLoadingSubscription h || isLoadingTrial h.

Definition render (h : Hooks) : View :=
  if isLoading h then Skeleton else TrialOffer (isPending h).

(** One pass of the component: the returned view and the effect run
    after it. *)
Definition ActivateTrialPage (h : Hooks) : View * list Event :=
  (render h, gateEffect h).

Inductive GateDecision :=
| Loading
| RedirectToDashboard
| RedirectToSubscription
| OfferTrial.

(** The decision read off one pass of the component: the skeleton is
    [Loading]; otherwise the route pushed by the effect, and the offer
    when nothing is pushed. *)
Definition gateDecision (h : Hooks) : GateDecision :=
  match ActivateTrialPage h with
  | (Skeleton, _) => Loading
  | (TrialOffer _, RouterPush path :: _) =>
      if String.eqb path "/dashboard" then RedirectToDashboard
      else if String.eqb path "/subscription" then RedirectToSubscription
      else OfferTrial
  | (TrialOffer _, _) => OfferTrial
  end.

(** Hooks of a render at which both queries hold data. *)
Definition settled (sub : Subscription) (ts : TrialStatus) (pend : bool) : Hooks :=
  {| subscription := Some sub; isLoadingSubscription := false;
     trialStatus := Some ts; isLoadingTrial := false;
     isPending := pend |}.

(** *** The two queries settling over time *)

(** Modelled from the spec: the hooks [useSubscription] and
    [useTrialStatus] are not among the sources.  Each input is pending
    until its query settles, with a snapshot or (on failure) without
    one; the two settle independently, in either order. *)
Inductive QueryEvent :=
| SubscriptionSettled (data : option Subscription)
| TrialSettled (data : option TrialStatus).

(** Modelled from the spec: on gate entry both queries are pending. *)
Definition mounted : Hooks :=
  {| subscription := None; isLoadingSubscription := true;
     trialStatus := None; isLoadingTrial := true;
     isPending := false |}.

(** Modelled from the spec: a settling query stops loading and
    delivers its data; the other query is untouched. *)
Definition settle (h : Hooks) (e : QueryEvent) : Hooks :=
  match e with
  | SubscriptionSettled d =>
      {| subscription := d; isLoadingSubscription := false;
         trialStatus := trialStatus h; isLoadingTrial := isLoadingTrial h;
         isPending := isPending h |}
  | TrialSettled d =>
      {| subscription := subscription h;
         isLoadingSubscription := isLoadingSubscription h;
         trialStatus := d; isLoadingTrial := false;
         isPending := isPending h |}
  end.

Definition after (evs : list QueryEvent) : Hooks := fold_left settle evs mounted.

Definition isSubscriptionEvent (e : QueryEvent) : bool :=
  match e with SubscriptionSettled _ => true | TrialSettled _ => false end.

Definition isTrialEvent (e : QueryEvent) : bool :=
  match e with TrialSettled _ => true | SubscriptionSettled _ => false end.

Definition bothSettled (evs : list QueryEvent) : bool :=
  existsb isSubscriptionEvent evs && existsb isTrialEvent evs.

(** *** The precedence table in the words of the specification *)

Definition entitled (sub : Subscription) : bool :=
  match tier sub with
  | Some t => negb (existsb (String.eqb (name t)) ["none"; "free"])
  | None => false
  end.

Definition activeTrial (ts : TrialStatus) : bool :=
  match trial_status ts with
  | Some s => Bool.eqb (has_trial ts) true && String.eqb s "active"
  | None => false
  end.

Definition exhaustedTrial (ts : TrialStatus) : bool :=
  match trial_status ts with
  | Some s => existsb (String.eqb s) ["used"; "expired"; "cancelled"; "converted"]
  | None => false
  end.

Definition precedence (sub : Subscription) (ts : TrialStatus) : GateDecision :=
  if activeTrial ts then RedirectToDashboard
  else if entitled sub then RedirectToDashboard
  else if exhaustedTrial ts then RedirectToSubscription
  else OfferTrial.

(** The trial statuses the page tests for, and whether a value lies
    outside them (an absent status does). *)
Definition enumerated : list string :=
  ["active"; "used"; "expired"; "cancelled"; "converted"].

Definition outsideEnumeration (v : option string) : bool :=
  match v with
  | Some s => negb (existsb (String.eqb s) enumerated)
  | None => true
  end.

(** Hooks of a render after the subscription query has failed: loading
    is over and there is no subscription data. *)
Definition subscriptionFailed (ts : TrialStatus) : Hooks :=
  {| subscription := None; isLoadingSubscription := false;
     trialStatus := Some ts; isLoadingTrial := false;
     isPending := false |}.

End Gate.

(** ** The start-trial click handler *)

Module Activation.
Import Effects Gate.

(** *** Effects and exceptions of the handler

    A computation yields the events it emitted, in order, and either
    completes normally or throws; events emitted before a throw stay. *)
Inductive Completion (A : Type) :=
| Normal (a : A)
| Throw (e : Thrown).
Arguments Normal {A} a.
Arguments Throw {A} e.

Definition Js (A : Type) : Type := list Event * Completion A.

Definition trace {A} (m : Js A) : list Event := fst m.
Definition completion {A} (m : Js A) : Completion A := snd m.

Definition ret {A} (a : A) : Js A := ([], Normal a).

Definition bind {A B} (m : Js A) (k : A -> Js B) : Js B :=
  match m with
  | (t, Normal a) => (t ++ trace (k a), completion (k a))
  | (t, Throw e) => (t, Throw e)
  end.

Definition emit (ev : Event) : Js unit := ([ev], Normal tt).

Definition throw {A} (e : Thrown) : Js A := ([], Throw e).

(** [try { m } catch (error) { handler error }]. *)
Definition tryCatch {A} (m : Js A) (handler : Thrown -> Js A) : Js A :=
  match m with
  | (t, Throw e) => (t ++ trace (handler e), completion (handler e))
  | (t, Normal a) => (t, Normal a)
  end.

Declare Scope js_scope.
Delimit Scope js_scope with js.
Notation "x <- m ;; k" := (bind m (fun x => k))
  (at level 61, m at next level, right associativity) : js_scope.
Notation "m ;; k" := (bind m (fun _ => k))
  (at level 61, right associativity) : js_scope.
Local Open Scope js_scope.

(** *** The world around the handler *)

(** How the promise returned by [mutateAsync] settles.  A resolved
    value may be nullish ([None]). *)
Inductive Settled :=
| Resolved (result : option ActivationResult)
| Rejected (error : Thrown).

Record Env := {
  origin : string;                             (* window.location.origin *)
  mutateAsync : ActivationRequest -> Settled;  (* startTrialMutation.mutateAsync *)
  hrefSetter : string -> option Thrown;        (* Some e: the setter throws e *)
  typeError : Thrown                           (* reading a property of a nullish value *)
}.

Definition callMutateAsync (env : Env) (req : ActivationRequest) : Js Settled :=
  emit (StartTrialRequest req) ;; ret (mutateAsync env req).

Definition await (p : Settled) : Js (option ActivationResult) :=
  match p with
  | Resolved r => ret r
  | Rejected e => throw e
  end.

(** [result.checkout_url]. *)
Definition readCheckoutUrl (env : Env) (result : option ActivationResult)
  : Js (option string) :=
  match result with
  | Some r => ret (checkout_url r)
  | None => throw (typeError env)
  end.

(** [window.location.href = url]. *)
Definition setHref (env : Env) (url : string) : Js unit :=
  match hrefSetter env url with
  | None => emit (HrefAssign url)
  | Some e => throw e
  end.

(** The object literal passed to [mutateAsync]. *)
Definition buildRequest (env : Env) : ActivationRequest :=
  {| success_url := origin env ++ "/dashboard?trial=started";
     cancel_url := origin env ++ "/activate-trial" |}.

(** The statements of the [try] block after the [await]. *)
Definition afterAwait (env : Env) (result : option ActivationResult) : Js unit :=
  url <- readCheckoutUrl env result ;;
  if JS.truthy url then
    match url with
    | Some u => setHref env u
    | None => ret tt
    end
  else ret tt.

Definition tryBody (env : Env) : Js unit :=
  p <- callMutateAsync env (buildRequest env) ;;
  result <- await p ;;
  afterAwait env result.

Definition fallbackMessage : string := "Failed to start trial. Please try again.".

Definition catchHandler (error : Thrown) : Js unit :=
  emit (ConsoleError "Failed to start trial:" error) ;;
  emit (ToastError (JS.orElse (message error) fallbackMessage)).

Definition handleStartTrial (env : Env) : Js unit :=
  tryCatch (tryBody env) catchHandler.

(** *** Invocations overlapping at the [await]

    The handler runs up to its [await] when invoked and the rest when
    the promise settles. *)
Definition resume (env : Env) (p : Settled) : Js unit :=
  tryCatch (result <- await p ;; afterAwait env result) catchHandler.

(** *** The start button *)

(** Modelled from the spec: the [Button] component is not among the
    sources.  The page gives it [onClick={handleStartTrial}] and
    [disabled={startTrialMutation.isPending}]; a disabled button
    dispatches no click, so the repeated user action is a no-op, and
    the skeleton has no button. *)
Definition click (env : Env) (v : View) : Js unit :=
  match v with
  | TrialOffer false => handleStartTrial env
  | TrialOffer true => ret tt
  | Skeleton => ret tt
  end.

(** Modelled from the spec: the hook [useStartTrial] is not among the
    sources.  Once the request has settled the mutation is no longer
    pending; the handler leaves the query snapshots as they were. *)
Definition mutationSettled (h : Hooks) : Hooks :=
  {| subscription := subscription h;
     isLoadingSubscription := isLoadingSubscription h;
     trialStatus := trialStatus h;
     isLoadingTrial := isLoadingTrial h;
     isPending := false |}.

(** Modelled from the spec: the hook [useStartTrial] is not among the
    sources.  While its request is in flight the mutation is pending
    (the in-flight flag); the query snapshots are as they were. *)
Definition mutationInFlight (h : Hooks) : Hooks :=
  {| subscription := subscription h;
     isLoadingSubscription := isLoadingSubscription h;
     trialStatus := trialStatus h;
     isLoadingTrial := isLoadingTrial h;
     isPending := true |}.

(** The part of a click that runs at once: on the enabled button the
    handler runs up to its [await] and leaves its promise pending; a
    disabled button and the skeleton start nothing. *)
Definition clickStart (env : Env) (v : View) : Js (option Settled) :=
  match v with
  | TrialOffer false =>
      p <- callMutateAsync env (buildRequest env) ;; ret (Some p)
  | TrialOffer true => ret None
  | Skeleton => ret None
  end.

(** The rest of a click, run when its promise settles. *)
Definition clickSettles (env : Env) (p : option Settled) : Js unit :=
  match p with
  | Some p => resume env p
  | None => ret tt
  end.

(** Two clicks in a row on a page whose hooks are [h]: the second is
    made while the request of the first is in flight, on the page as
    rendered then; the promises settle afterwards. *)
Definition twoRapidClicks (env : Env) (h : Hooks) : Js unit :=
  p1 <- clickStart env (render h) ;;
  p2 <- clickStart env (render (mutationInFlight h)) ;;
  clickSettles env p1 ;;
  clickSettles env p2.

(** *** Sample environments *)

Definition noThrow : string -> option Thrown := fun _ => None.

Definition sampleTypeError : Thrown :=
  {| message := Some "Cannot read properties of undefined (reading 'checkout_url')" |}.

Definition envWith (p : Settled) : Env :=
  {| origin := "https://app"; mutateAsync := fun _ => p;
     hrefSetter := noThrow; typeError := sampleTypeError |}.

(** An environment whose [href] setter rejects every URL. *)
Definition envHrefThrows (p : Settled) (e : Thrown) : Env :=
  {| origin := "https://app"; mutateAsync := fun _ => p;
     hrefSetter := fun _ => Some e; typeError := sampleTypeError |}.

End Activation.

(** ** The feature-flag gate of the app-profiles page *)

Module AppProfiles.

(** What [useFeatureFlag("custom_agents")] hands to one render. *)
Record FeatureFlag := {
  customAgentsEnabled : bool;   (* enabled *)
  flagLoading : bool            (* loading *)
}.

Inductive RouterCall :=
| RouterReplace (path : string).   (* router.replace(path) *)

(** The body of the [useEffect]. *)
Definition flagEffect (f : FeatureFlag) : list RouterCall :=
  if negb (flagLoading f) && negb (customAgentsEnabled f) then
    [RouterReplace "/dashboard"]
  else [].

(** What the component returns: the placeholder, [null], or the page
    with its connections section. *)
Inductive View :=
| Placeholder
| Nothing
| Connections.

Definition AppProfilesPage (f : FeatureFlag) : View :=
  if flagLoading f then Placeholder
  else if negb (customAgentsEnabled f) then Nothing
  else Connections.

End AppProfiles.

(** ** The profile image picker *)

Module Picker.
Import Effects.
Import Activation (Completion, Normal, Throw).

(** A [string | null | undefined] value. *)
Inductive JsStr :=
| Undefined
| Null
| Str (s : string).

Definition truthy (v : JsStr) : bool :=
  match v with
  | Str s => negb (String.eqb s "")
  | _ => false
  end.

(** [v || null]. *)
Definition orNull (v : JsStr) : JsStr := if truthy v then v else Null.

(** [a === b]. *)
Definition strictEqual (a b : JsStr) : bool :=
  match a, b with
  | Undefined, Undefined => true
  | Null, Null => true
  | Str x, Str y => String.eqb x y
  | _, _ => false
  end.

(** The fields of a [File] the picker reads. *)
Record File := {
  type : string;
  size : N
}.

Record Props := {
  agentId : string;
  currentImageUrl : JsStr
}.

(** The five [useState] cells. *)
Record State := {
  isOpen : bool;
  selectedImage : JsStr;
  aiPrompt : string;
  isGenerating : bool;
  isUploading : bool
}.

Inductive FormValue :=
| FileValue (f : File)
| TextValue (s : string).

(** The body of a request: the [FormData] entries in the order they
    were appended, or the fields of the object given to
    [JSON.stringify]. *)
Inductive Body :=
| FormData (entries : list (string * FormValue))
| JsonBody (fields : list (string * string)).

Inductive Event :=
| ToastError (text : string)
| ToastSuccess (text : string)
| ConsoleError (label : string) (error : Thrown)
| Fetch (url : string) (body : Body)        (* fetch(url, { method: 'POST', body }) *)
| OnImageChange (imageUrl : JsStr).         (* the onImageChange prop called *)

Definition isFetch (e : Event) : bool :=
  match e with Fetch _ _ => true | _ => false end.

Definition isToast (e : Event) : bool :=
  match e with ToastError _ | ToastSuccess _ => true | _ => false end.

Definition isErrorToast (e : Event) : bool :=
  match e with ToastError _ => true | _ => false end.

(** *** Handlers: events, state cells and exceptions *)

Definition Handler (A : Type) : Type := State -> list Event * State * Completion A.

Definition events {A} (r : list Event * State * Completion A) : list Event := fst (fst r).
Definition final {A} (r : list Event * State * Completion A) : State := snd (fst r).
Definition outcome {A} (r : list Event * State * Completion A) : Completion A := snd r.

Definition pure {A} (a : A) : Handler A := fun s => ([], s, Normal a).

Definition andThen {A B} (m : Handler A) (k : A -> Handler B) : Handler B :=
  fun s =>
    match m s with
    | (t, s1, Normal a) =>
        (t ++ events (k a s1), final (k a s1), outcome (k a s1))
    | (t, s1, Throw e) => (t, s1, Throw e)
    end.

Definition emit (ev : Event) : Handler unit := fun s => ([ev], s, Normal tt).

Definition throw {A} (e : Thrown) : Handler A := fun s => ([], s, Throw e).

Definition setIsOpen (b : bool) : Handler unit := fun s =>
  ([], {| isOpen := b; selectedImage := selectedImage s; aiPrompt := aiPrompt s;
          isGenerating := isGenerating s; isUploading := isUploading s |}, Normal tt).

Definition setSelectedImage (v : JsStr) : Handler unit := fun s =>
  ([], {| isOpen := isOpen s; selectedImage := v; aiPrompt := aiPrompt s;
          isGenerating := isGenerating s; isUploading := isUploading s |}, Normal tt).

Definition setAiPrompt (p : string) : Handler unit := fun s =>
  ([], {| isOpen := isOpen s; selectedImage := selectedImage s; aiPrompt := p;
          isGenerating := isGenerating s; isUploading := isUploading s |}, Normal tt).

Definition setIsGenerating (b : bool) : Handler unit := fun s =>
  ([], {| isOpen := isOpen s; selectedImage := selectedImage s; aiPrompt := aiPrompt s;
          isGenerating := b; isUploading := isUploading s |}, Normal tt).

Definition setIsUploading (b : bool) : Handler unit := fun s =>
  ([], {| isOpen := isOpen s; selectedImage := selectedImage s; aiPrompt := aiPrompt s;
          isGenerating := isGenerating s; isUploading := b |}, Normal tt).

(** [try { body } catch (error) { handler error } finally { fin }]. *)
Definition tryCatchFinally {A} (body : Handler A) (handler : Thrown -> Handler A)
    (fin : Handler unit) : Handler A :=
  fun s =>
    let r1 := body s in
    let r2 := match outcome r1 with
              | Normal a => ([], final r1, Normal a)
              | Throw e => handler e (final r1)
              end in
    let r3 := fin (final r2) in
    (events r1 ++ events r2 ++ events r3, final r3,
     match outcome r3 with
     | Normal _ => outcome r2
     | Throw e => Throw e
     end).

Declare Scope picker_scope.
Delimit Scope picker_scope with picker.
Notation "x <- m ;; k" := (andThen m (fun x => k))
  (at level 61, m at next level, right associativity) : picker_scope.
Notation "m ;; k" := (andThen m (fun _ => k))
  (at level 61, right associativity) : picker_scope.
Local Open Scope picker_scope.

(** *** The world around the handlers *)

(** What [await response.json()] followed by [result.image_url] gives:
    the call rejects, the value is nullish (reading the property
    throws), or the property is read. *)
Inductive JsonResult :=
| JsonRejects (e : Thrown)
| JsonNullish
| JsonObject (image_url : JsStr).

Inductive FetchResult :=
| FetchRejects (e : Thrown)
| FetchResponds (ok : bool) (json : JsonResult).

Record Env := {
  fetch : string -> Body -> FetchResult;
  trim : string -> string;                 (* String.prototype.trim *)
  typeError : Thrown
}.

Definition callFetch (env : Env) (url : string) (body : Body) : Handler (bool * JsonResult) :=
  emit (Fetch url body) ;;
  match fetch env url body with
  | FetchRejects e => throw e
  | FetchResponds ok json => pure (ok, json)
  end.

(** [(await response.json()).image_url]. *)
Definition readImageUrl (env : Env) (json : JsonResult) : Handler JsStr :=
  match json with
  | JsonRejects e => throw e
  | JsonNullish => throw (typeError env)
  | JsonObject v => pure v
  end.

(** [new Error(text)]. *)
Definition newError (text : string) : Thrown := {| message := Some text |}.

Definition maxImageSize : N := 5 * 1024 * 1024.

Definition handleFileUpload (props : Props) (env : Env) (file : option File)
  : Handler unit :=
  match file with
  | None => pure tt
  | Some f =>
      if negb (String.prefix "image/" (type f)) then
        emit (ToastError "Please select an image file")
      else if (maxImageSize <? size f)%N then
        emit (ToastError "Image size must be less than 5MB")
      else
        setIsUploading true ;;
        tryCatchFinally
          (response <- callFetch env "/api/agents/upload-profile-image"
                         (FormData [("file", FileValue f);
                                    ("agent_id", TextValue (agentId props))]) ;;
           (if negb (fst response) then throw (newError "Failed to upload image")
            else pure tt) ;;
           image_url <- readImageUrl env (snd response) ;;
           setSelectedImage image_url ;;
           emit (ToastSuccess "Image uploaded successfully"))
          (fun error =>
             emit (ConsoleError "Upload error:" error) ;;
             emit (ToastError "Failed to upload image. Please try again."))
          (setIsUploading false)
  end.

(** [event.target.files?.[0]] is the head of the file list. *)
Definition handleFileSelect (props : Props) (env : Env) (files : list File)
  : Handler unit :=
  match hd_error files with
  | Some f => handleFileUpload props env (Some f)
  | None => pure tt
  end.

Definition handleAIGenerate (props : Props) (env : Env) : Handler unit :=
  fun s =>
    (if String.eqb (trim env (aiPrompt s)) "" then
       emit (ToastError "Please enter a description for the AI to generate an image")
     else
       setIsGenerating true ;;
       tryCatchFinally
         (response <- callFetch env "/api/agents/generate-profile-image"
                        (JsonBody [("agent_id", agentId props);
                                   ("prompt", trim env (aiPrompt s))]) ;;
          (if negb (fst response) then throw (newError "Failed to generate image")
           else pure tt) ;;
          image_url <- readImageUrl env (snd response) ;;
          setSelectedImage image_url ;;
          emit (ToastSuccess "AI image generated successfully") ;;
          setAiPrompt "")
         (fun error =>
            emit (ConsoleError "AI generation error:" error) ;;
            emit (ToastError "Failed to generate AI image. Please try again."))
         (setIsGenerating false)) s.

Definition handleSubmit : Handler unit :=
  fun s => (emit (OnImageChange (selectedImage s)) ;; setIsOpen false) s.

Definition handleRemove : Handler unit := setSelectedImage Null.

Definition handleReset (props : Props) : Handler unit :=
  setSelectedImage (orNull (currentImageUrl props)) ;;
  setAiPrompt "".

(** The [useState] initial values. *)
Definition initialState (props : Props) : State :=
  {| isOpen := false; selectedImage := orNull (currentImageUrl props);
     aiPrompt := ""; isGenerating := false; isUploading := false |}.

(** The effect run when [currentImageUrl] changes. *)
Definition syncEffect (props : Props) : Handler unit :=
  setSelectedImage (orNull (currentImageUrl props)).

(** *** What the render derives from the state *)

(** [disabled] of the Apply button. *)
Definition applyDisabled (props : Props) (s : State) : bool :=
  strictEqual (selectedImage s) (currentImageUrl props).

(** [disabled] of the Generate button. *)
Definition generateDisabled (env : Env) (s : State) : bool :=
  isGenerating s || String.eqb (trim env (aiPrompt s)) "".

(** [disabled] of the Choose File button. *)
Definition uploadDisabled (s : State) : bool := isUploading s.

(** Whether the preview block is rendered. *)
Definition previewShown (s : State) : bool := truthy (selectedImage s).

Definition fetches (tr : list Event) : list Event := filter isFetch tr.
Definition toasts (tr : list Event) : list Event := filter isToast tr.
Definition errorToasts (tr : list Event) : list Event := filter isErrorToast tr.

(** Whether a file passes the two checks of the upload handler. *)
Definition acceptable (f : File) : bool :=
  String.prefix "image/" (type f) && (size f <=? maxImageSize)%N.

(** *** Sample environments *)

Definition isSpace (c : Ascii.ascii) : bool :=
  match Ascii.nat_of_ascii c with
  | 9 | 10 | 11 | 12 | 13 | 32 => true
  | _ => false
  end.

Fixpoint dropSpaces (l : list Ascii.ascii) : list Ascii.ascii :=
  match l with
  | c :: l' => if isSpace c then dropSpaces l' else l
  | [] => []
  end.

(** [trim] on strings whose white space is ASCII. *)
Definition trimAscii (s : string) : string :=
  string_of_list_ascii
    (rev (dropSpaces (rev (dropSpaces (list_ascii_of_string s))))).

Definition envAnswering (r : FetchResult) : Env :=
  {| fetch := fun _ _ => r; trim := trimAscii;
     typeError := {| message := Some "Cannot read properties of null (reading 'image_url')" |} |}.

Ltac picker_unfold :=
  unfold tryCatchFinally, callFetch, readImageUrl, andThen, emit, throw, pure,
    setIsUploading, setSelectedImage, setAiPrompt, setIsGenerating, setIsOpen,
    events, final, outcome.

End Picker.

Import Billing Effects Gate Activation.
Local Open Scope js_scope.

Ltac js_unfold :=
  unfold handleStartTrial, resume, tryBody,
    callMutateAsync, afterAwait, readCheckoutUrl, setHref, catchHandler,
    await, tryCatch, bind, emit, ret, throw, trace, completion.

(** Splits on every way the world can answer the handler. *)
Ltac js_cases env :=
  js_unfold; cbn;
  destruct (mutateAsync env (buildRequest env)) as [[[[u|]]|]|err]; cbn;
  try destruct (negb (String.eqb u "")); cbn;
  try destruct (hrefSetter env u); cbn.

Example scenarioA :
  gateDecision (settled {| tier := None |} {| has_trial := false; trial_status := None |} false)
  = OfferTrial.
Proof. reflexivity. Qed.

Example scenarioB :
  gateDecision (settled {| tier := Some {| name := "pro" |} |}
                        {| has_trial := false; trial_status := None |} false)
  = RedirectToDashboard.
Proof. reflexivity. Qed.

Example scenarioC :
  gateDecision (settled {| tier := Some {| name := "free" |} |}
                        {| has_trial := true; trial_status := Some "expired" |} false)
  = RedirectToSubscription.
Proof. reflexivity. Qed.

Example scenarioD :
  handleStartTrial (envWith (Resolved (Some {| checkout_url := Some "https://billing/session/1" |})))
  = ([StartTrialRequest {| success_url := "https://app/dashboard?trial=started";
                           cancel_url := "https://app/activate-trial" |};
      HrefAssign "https://billing/session/1"], Normal tt).
Proof. reflexivity. Qed.

(** ** The gate *)

Section GateFacts.

Variables (sub : Subscription) (ts : TrialStatus).

Lemma hasActiveTrial_activeTrial : hasActiveTrial ts = activeTrial ts.
Proof.
  unfold hasActiveTrial, activeTrial, JS.strictEq.
  destruct (trial_status ts), (has_trial ts); reflexivity.
Qed.

Lemma hasUsedTrial_exhaustedTrial : hasUsedTrial ts = exhaustedTrial ts.
Proof.
  unfold hasUsedTrial, exhaustedTrial, JS.strictEq.
  destruct (trial_status ts) as [s|]; [|reflexivity].
  cbn [existsb]. now rewrite orb_false_r, !orb_assoc.
Qed.

Lemma hasActiveSubscription_entitled : hasActiveSubscription sub = entitled sub.
Proof.
  unfold hasActiveSubscription, entitled, JS.strictNe.
  destruct (tier sub) as [t|]; [|reflexivity].
  cbn [existsb]. now rewrite orb_false_r, negb_orb.
Qed.

(** On settled hooks the decision is the [if]/[else if] of the effect. *)
Lemma gateDecision_settled pend :
  gateDecision (settled sub ts pend) =
    if hasActiveTrial ts || hasActiveSubscription sub then RedirectToDashboard
    else if hasUsedTrial ts then RedirectToSubscription
    else OfferTrial.
Proof.
  unfold gateDecision, ActivateTrialPage, render, isLoading, gateEffect; cbn.
  destruct (hasActiveTrial ts || hasActiveSubscription sub); [reflexivity|].
  destruct (hasUsedTrial ts); reflexivity.
Qed.

End GateFacts.

(** The loading flags after a run of settlements. *)
Lemma settle_flags evs : forall h,
  isLoadingSubscription (fold_left settle evs h)
    = isLoadingSubscription h && negb (existsb isSubscriptionEvent evs) /\
  isLoadingTrial (fold_left settle evs h)
    = isLoadingTrial h && negb (existsb isTrialEvent evs).
Proof.
  induction evs as [|e evs IH]; intros h; cbn [fold_left existsb].
  - now rewrite !andb_true_r.
  - destruct (IH (settle h e)) as [IHs IHt]. rewrite IHs, IHt.
    destruct e; cbn; split;
      try reflexivity; now rewrite ?andb_false_r.
Qed.

Lemma loading_is_skeleton h :
  isLoading h = true ->
  gateDecision h = Loading /\ gateEffect h = [] /\ render h = Skeleton.
Proof.
  intros L. unfold gateDecision, ActivateTrialPage, render. rewrite L.
  repeat split. unfold gateEffect. unfold isLoading in L.
  destruct (isLoadingSubscription h), (isLoadingTrial h);
    try reflexivity; discriminate.
Qed.

(** C2: on settled snapshots the gate follows the precedence order of
    the specification, first match winning: active trial or entitled
    subscription gives RedirectToDashboard, otherwise an exhausted
    trial gives RedirectToSubscription, otherwise OfferTrial; in
    particular an active trial or entitlement beats an exhausted-trial
    signal. *)
Theorem gate_follows_precedence (sub : Subscription) (ts : TrialStatus) (pend : bool) :
  gateDecision (settled sub ts pend) = precedence sub ts /\
  (activeTrial ts || entitled sub = true ->
   exhaustedTrial ts = true ->
   gateDecision (settled sub ts pend) = RedirectToDashboard).
Proof.
  assert (E : gateDecision (settled sub ts pend) = precedence sub ts).
  { rewrite gateDecision_settled, hasActiveTrial_activeTrial,
      hasUsedTrial_exhaustedTrial, hasActiveSubscription_entitled.
    unfold precedence.
    destruct (activeTrial ts), (entitled sub); reflexivity. }
  split; [exact E|].
  intros D _. rewrite E. unfold precedence.
  destruct (activeTrial ts); [reflexivity|].
  cbn in D. now rewrite D.
Qed.

Lemma gate_follows_precedence_witness :
  let sub := {| tier := Some {| name := "pro" |} |} in
  let ts := {| has_trial := true; trial_status := Some "expired" |} in
  exhaustedTrial ts = true /\ gateDecision (settled sub ts false) = RedirectToDashboard.
Proof.
  cbv zeta. split; [reflexivity|].
  apply (gate_follows_precedence
           {| tier := Some {| name := "pro" |} |}
           {| has_trial := true; trial_status := Some "expired" |} false);
    reflexivity.
Defined.

(** C3: in whatever order the two queries settle, as long as one of
    them has not settled the decision is Loading: the effect pushes no
    route and the component returns the skeleton, not the offer. *)
Theorem loading_until_both_settled (evs : list QueryEvent) :
  bothSettled evs = false ->
  gateDecision (after evs) = Loading /\
  gateEffect (after evs) = [] /\
  render (after evs) = Skeleton.
Proof.
  intros B. apply loading_is_skeleton.
  unfold isLoading, after.
  destruct (settle_flags evs mounted) as [Fs Ft]. rewrite Fs, Ft. cbn.
  unfold bothSettled in B.
  destruct (existsb isSubscriptionEvent evs), (existsb isTrialEvent evs);
    try reflexivity; discriminate.
Qed.

Lemma loading_until_both_settled_witness :
  let evs := [TrialSettled (Some {| has_trial := true; trial_status := Some "active" |})] in
  bothSettled evs = false /\ gateDecision (after evs) = Loading.
Proof.
  cbv zeta. split; [reflexivity|].
  apply (loading_until_both_settled
           [TrialSettled (Some {| has_trial := true; trial_status := Some "active" |})]).
  reflexivity.
Defined.

(** C4, as the page behaves: once both queries have finished loading,
    a query without data (a failed one) makes the effect push no route
    and the component return the trial offer, so the decision is
    OfferTrial. *)
Theorem failed_query_offers_trial (h : Hooks) :
  isLoading h = false ->
  subscription h = None \/ trialStatus h = None ->
  gateEffect h = [] /\
  render h = TrialOffer (isPending h) /\
  gateDecision h = OfferTrial.
Proof.
  intros L D.
  assert (E : gateEffect h = []).
  { unfold gateEffect.
    destruct (negb (isLoadingSubscription h) && negb (isLoadingTrial h));
      [|reflexivity].
    destruct D as [D|D]; rewrite D; [reflexivity|].
    destruct (subscription h); reflexivity. }
  unfold gateDecision, ActivateTrialPage, render. rewrite L, E.
  repeat split.
Qed.

Lemma failed_query_offers_trial_witness :
  let h := subscriptionFailed {| has_trial := true; trial_status := Some "active" |} in
  isLoading h = false /\ subscription h = None /\ gateDecision h = OfferTrial.
Proof.
  cbv zeta. split; [reflexivity|]. split; [reflexivity|].
  apply (failed_query_offers_trial
           (subscriptionFailed {| has_trial := true; trial_status := Some "active" |}));
    [reflexivity | left; reflexivity].
Defined.

(** C4 as stated fails: with the subscription query failed (no data,
    loading finished) the gate resolves to OfferTrial, here reached by
    the trial query settling and the subscription query failing. *)
Lemma failed_query_counterexample :
  let evs := [TrialSettled (Some {| has_trial := false; trial_status := None |});
              SubscriptionSettled None] in
  isLoading (after evs) = false /\
  subscription (after evs) = None /\
  render (after evs) = TrialOffer false /\
  gateDecision (after evs) = OfferTrial.
Proof.
  cbv zeta. repeat split.
Qed.

(** C8: on settled snapshots with a subscription that is not entitled,
    a trial status outside active, used, expired, cancelled, converted
    (or an absent one) falls through to OfferTrial, and the effect
    issues no redirect. *)
Theorem unrecognized_status_offers_trial
    (sub : Subscription) (ts : TrialStatus) (pend : bool) :
  entitled sub = false ->
  outsideEnumeration (trial_status ts) = true ->
  gateDecision (settled sub ts pend) = OfferTrial /\
  navigations (gateEffect (settled sub ts pend)) = [].
Proof.
  intros E O.
  assert (A : hasActiveTrial ts = false /\ hasUsedTrial ts = false).
  { unfold hasActiveTrial, hasUsedTrial, JS.strictEq.
    unfold outsideEnumeration, enumerated in O.
    destruct (trial_status ts) as [s|]; [|now rewrite andb_false_r].
    cbn [existsb] in O. apply negb_true_iff in O.
    repeat (apply orb_false_iff in O; destruct O as [?H O]).
    rewrite H, H0, H1, H2, H3. now rewrite andb_false_r. }
  destruct A as [A U].
  rewrite gateDecision_settled.
  unfold gateEffect; cbn.
  rewrite A, U, hasActiveSubscription_entitled, E. split; reflexivity.
Qed.

Lemma unrecognized_status_offers_trial_witness :
  gateDecision (settled {| tier := Some {| name := "free" |} |}
                        {| has_trial := true; trial_status := Some "paused" |} false)
  = OfferTrial.
Proof.
  apply (unrecognized_status_offers_trial
           {| tier := Some {| name := "free" |} |}
           {| has_trial := true; trial_status := Some "paused" |} false);
    reflexivity.
Defined.

(** C9: one run of the gate effect issues no call, or the single push
    to /dashboard, or the single push to /subscription: never both. *)
Theorem redirects_mutually_exclusive (h : Hooks) :
  (gateEffect h = [] \/
   gateEffect h = [RouterPush "/dashboard"] \/
   gateEffect h = [RouterPush "/subscription"]) /\
  length (navigations (gateEffect h)) <= 1.
Proof.
  unfold gateEffect.
  destruct (negb (isLoadingSubscription h) && negb (isLoadingTrial h));
    [|split; [now left | cbn; lia]].
  destruct (subscription h) as [sub|]; [|split; [now left | cbn; lia]].
  destruct (trialStatus h) as [ts|]; [|split; [now left | cbn; lia]].
  destruct (hasActiveTrial ts || hasActiveSubscription sub);
    [split; [now right; left | cbn; lia]|].
  destruct (hasUsedTrial ts); split;
    solve [now right; right | now left | cbn; lia].
Qed.

(** ** The start-trial handler *)

Section HandlerRuns.

Variable env : Env.

Lemma run_rejected e :
  mutateAsync env (buildRequest env) = Rejected e ->
  handleStartTrial env =
    ([StartTrialRequest (buildRequest env);
      ConsoleError "Failed to start trial:" e;
      ToastError (JS.orElse (message e) fallbackMessage)], Normal tt).
Proof. intros R. js_unfold. cbn. rewrite R. reflexivity. Qed.

Lemma run_without_url r :
  mutateAsync env (buildRequest env) = Resolved (Some r) ->
  JS.truthy (checkout_url r) = false ->
  handleStartTrial env = ([StartTrialRequest (buildRequest env)], Normal tt).
Proof.
  intros R F. js_unfold. cbn. rewrite R. cbn. rewrite F. reflexivity.
Qed.

Lemma run_with_url r u :
  mutateAsync env (buildRequest env) = Resolved (Some r) ->
  checkout_url r = Some u -> u <> "" ->
  hrefSetter env u = None ->
  handleStartTrial env =
    ([StartTrialRequest (buildRequest env); HrefAssign u], Normal tt).
Proof.
  intros R U N H. js_unfold. cbn. rewrite R. cbn. rewrite U. cbn.
  apply String.eqb_neq in N. rewrite N. cbn. rewrite H. reflexivity.
Qed.

(** The handler is its synchronous part followed by the resumption. *)
Lemma handleStartTrial_split :
  handleStartTrial env =
    (p <- callMutateAsync env (buildRequest env) ;; resume env p).
Proof. js_cases env; reflexivity. Qed.

Lemma resume_issues_no_request p : requests (trace (resume env p)) = [].
Proof.
  js_unfold.
  destruct p as [[[[u|]]|]|err]; cbn;
    try destruct (negb (String.eqb u "")); cbn;
    try destruct (hrefSetter env u); reflexivity.
Qed.

Lemma resume_completes p : completion (resume env p) = Normal tt.
Proof.
  js_unfold.
  destruct p as [[[[u|]]|]|err]; cbn;
    try destruct (negb (String.eqb u "")); cbn;
    try destruct (hrefSetter env u); reflexivity.
Qed.

Lemma tryBody_is_quiet : notifications (trace (tryBody env)) = [].
Proof. js_cases env; reflexivity. Qed.

End HandlerRuns.

(** C1, as the handler behaves: when the request succeeds and the
    result's checkout_url is missing or empty, the handler navigates
    nowhere and shows no notification; it issues its one request and
    completes silently. *)
Theorem missing_checkout_url_is_silent (env : Env) (r : ActivationResult) :
  mutateAsync env (buildRequest env) = Resolved (Some r) ->
  checkout_url r = None \/ checkout_url r = Some "" ->
  navigations (trace (handleStartTrial env)) = [] /\
  notifications (trace (handleStartTrial env)) = [] /\
  handleStartTrial env = ([StartTrialRequest (buildRequest env)], Normal tt).
Proof.
  intros R M.
  assert (F : JS.truthy (checkout_url r) = false)
    by (destruct M as [M|M]; rewrite M; reflexivity).
  rewrite (run_without_url env r R F). repeat split.
Qed.

Lemma missing_checkout_url_is_silent_witness :
  notifications
    (trace (handleStartTrial (envWith (Resolved (Some {| checkout_url := Some "" |})))))
  = [].
Proof.
  apply (missing_checkout_url_is_silent
           (envWith (Resolved (Some {| checkout_url := Some "" |})))
           {| checkout_url := Some "" |});
    [reflexivity | right; reflexivity].
Defined.

(** C1 as stated fails: a successful request whose result has no
    checkout_url yields zero navigations but also zero notifications,
    not one. *)
Lemma missing_checkout_url_counterexample :
  let env := envWith (Resolved (Some {| checkout_url := None |})) in
  mutateAsync env (buildRequest env) = Resolved (Some {| checkout_url := None |}) /\
  length (navigations (trace (handleStartTrial env))) = 0 /\
  length (notifications (trace (handleStartTrial env))) <> 1.
Proof.
  cbv zeta. split; [reflexivity|]. split; [reflexivity|]. cbn. discriminate.
Qed.

(** A click is its immediate part followed by its settling. *)
Lemma click_split (env : Env) (v : View) :
  click env v = (p <- clickStart env v ;; clickSettles env p).
Proof.
  destruct v as [|[|]]; try reflexivity.
  cbn [click clickStart]. rewrite handleStartTrial_split.
  unfold callMutateAsync, bind, emit, ret, trace, completion; cbn.
  destruct (resume env (mutateAsync env (buildRequest env))) as [t c].
  reflexivity.
Qed.

(** C5: while a start-trial request is in flight a repeated click is a
    no-op.  The page rendered then has the start button disabled by
    the pending flag, which is consulted before the handler can run:
    the second click starts nothing, so two rapid clicks issue the
    requests of the first alone, exactly one on the offer page with
    the button enabled. *)
Theorem second_click_in_flight_is_noop (env : Env) (h : Hooks) :
  isLoading h = false ->
  isPending h = false ->
  click env (render (mutationInFlight h)) = ret tt /\
  clickStart env (render (mutationInFlight h)) = ret None /\
  requests (trace (click env (render h))) = [StartTrialRequest (buildRequest env)] /\
  requests (trace (twoRapidClicks env h)) = [StartTrialRequest (buildRequest env)].
Proof.
  intros L P.
  assert (R : render (mutationInFlight h) = TrialOffer true).
  { unfold render. change (isLoading (mutationInFlight h)) with (isLoading h).
    now rewrite L. }
  assert (V : render h = TrialOffer false) by (unfold render; now rewrite L, P).
  split; [now rewrite R|]. split; [now rewrite R|]. split.
  - rewrite V. cbn [click]. js_cases env; reflexivity.
  - unfold twoRapidClicks. rewrite R, V. cbn [clickStart].
    set (p := mutateAsync env (buildRequest env)).
    pose proof (resume_issues_no_request env p) as Q.
    pose proof (resume_completes env p) as C.
    cbv beta iota delta
      [callMutateAsync clickSettles bind emit ret trace completion fst snd].
    fold p. unfold trace, completion in Q, C.
    destruct (resume env p) as [t c]. cbn [fst snd] in Q, C. subst c.
    unfold requests in *. cbn. rewrite !filter_app, Q. reflexivity.
Qed.

Lemma second_click_in_flight_is_noop_witness :
  let h := settled {| tier := None |} {| has_trial := false; trial_status := None |} false in
  let env := envWith (Resolved (Some {| checkout_url := Some "https://pay.example/abc" |})) in
  length (requests (trace (twoRapidClicks env h))) = 1.
Proof.
  cbv zeta.
  destruct (second_click_in_flight_is_noop
              (envWith (Resolved (Some {| checkout_url := Some "https://pay.example/abc" |})))
              (settled {| tier := None |} {| has_trial := false; trial_status := None |} false)
              eq_refl eq_refl) as (_ & _ & _ & T).
  rewrite T. reflexivity.
Defined.

(** C6: when the Start Trial request fails, the handler shows exactly
    one notification, carrying the error's message when it has a
    non-empty one and the generic fallback otherwise; it navigates
    nowhere, and a page that offered the trial still offers it with the
    button enabled, so a click retries. *)
Theorem failed_attempt_notifies_once (env : Env) (e : Thrown) :
  mutateAsync env (buildRequest env) = Rejected e ->
  (exists text,
     notifications (trace (handleStartTrial env)) = [ToastError text] /\
     (forall m, message e = Some m -> m <> "" -> text = m) /\
     (message e = None \/ message e = Some "" ->
      text = "Failed to start trial. Please try again.")) /\
  navigations (trace (handleStartTrial env)) = [] /\
  (forall h, gateDecision h = OfferTrial ->
     gateDecision (mutationSettled h) = OfferTrial /\
     click env (render (mutationSettled h)) = handleStartTrial env).
Proof.
  intros R. rewrite (run_rejected env e R). split; [|split].
  - exists (JS.orElse (message e) fallbackMessage). split; [reflexivity|]. split.
    + intros m M N. rewrite M. cbn. apply String.eqb_neq in N. now rewrite N.
    + intros [M|M]; rewrite M; reflexivity.
  - reflexivity.
  - intros h D. rewrite <- (run_rejected env e R).
    unfold gateDecision, ActivateTrialPage, render in *.
    change (isLoading (mutationSettled h)) with (isLoading h).
    change (gateEffect (mutationSettled h)) with (gateEffect h).
    destruct (isLoading h); [discriminate|]. split; [exact D|reflexivity].
Qed.

Lemma failed_attempt_notifies_once_witness :
  navigations
    (trace (handleStartTrial (envWith (Rejected {| message := Some "Trial already used" |}))))
  = [].
Proof.
  apply (failed_attempt_notifies_once
           (envWith (Rejected {| message := Some "Trial already used" |}))
           {| message := Some "Trial already used" |}).
  reflexivity.
Defined.

(** C7: the request the handler passes to Start Trial has success_url
    equal to the origin followed by /dashboard?trial=started and
    cancel_url equal to the origin followed by /activate-trial; it is
    the only request of an invocation and the first thing it does. *)
Theorem request_urls_from_origin (env : Env) :
  requests (trace (handleStartTrial env)) =
    [StartTrialRequest
       {| success_url := origin env ++ "/dashboard?trial=started";
          cancel_url := origin env ++ "/activate-trial" |}] /\
  hd_error (trace (handleStartTrial env)) =
    Some (StartTrialRequest
            {| success_url := origin env ++ "/dashboard?trial=started";
               cancel_url := origin env ++ "/activate-trial" |}).
Proof. js_cases env; split; reflexivity. Qed.

(** C10: the handler never throws to its caller.  Whatever throws
    inside the try block (the request rejecting, the result being
    nullish, the href setter throwing) is caught, and the handler then
    shows exactly one notification and completes normally. *)
Theorem handleStartTrial_never_throws (env : Env) :
  completion (handleStartTrial env) = Normal tt /\
  (forall e, completion (tryBody env) = Throw e ->
     trace (handleStartTrial env) =
       trace (tryBody env) ++
       [ConsoleError "Failed to start trial:" e;
        ToastError (JS.orElse (message e) fallbackMessage)] /\
     length (notifications (trace (handleStartTrial env))) = 1).
Proof.
  split.
  - unfold handleStartTrial, tryCatch, completion.
    destruct (tryBody env) as [t [[]|e]]; reflexivity.
  - intros e T. pose proof (tryBody_is_quiet env) as Q.
    unfold handleStartTrial, tryCatch.
    destruct (tryBody env) as [t c]. unfold completion, trace in *.
    cbn [fst snd] in T, Q. rewrite T. cbn [fst snd]. split; [reflexivity|].
    unfold notifications in *. rewrite filter_app, Q. reflexivity.
Qed.

Lemma handleStartTrial_never_throws_witness :
  let env := envHrefThrows (Resolved (Some {| checkout_url := Some "http://" |}))
                           {| message := Some "Invalid URL" |} in
  completion (tryBody env) = Throw {| message := Some "Invalid URL" |} /\
  completion (handleStartTrial env) = Normal tt /\
  length (notifications (trace (handleStartTrial env))) = 1.
Proof.
  cbv zeta.
  destruct (handleStartTrial_never_throws
              (envHrefThrows (Resolved (Some {| checkout_url := Some "http://" |}))
                             {| message := Some "Invalid URL" |})) as [N C].
  split; [reflexivity|]. split; [exact N|].
  apply (C {| message := Some "Invalid URL" |}). reflexivity.
Defined.

(** ** Further facts about the activation page *)

Lemma handler_issues_one_request (env : Env) :
  length (requests (trace (handleStartTrial env))) = 1.
Proof. js_cases env; reflexivity. Qed.

(** X1: when the request succeeds with a non-empty checkout_url and the
    href setter accepts it, the handler makes exactly one navigation,
    the assignment of that URL to window.location.href, shows no
    notification and completes normally. *)
Theorem checkout_navigates_once (env : Env) (r : ActivationResult) (u : string) :
  mutateAsync env (buildRequest env) = Resolved (Some r) ->
  checkout_url r = Some u ->
  u <> "" ->
  hrefSetter env u = None ->
  navigations (trace (handleStartTrial env)) = [HrefAssign u] /\
  notifications (trace (handleStartTrial env)) = [] /\
  completion (handleStartTrial env) = Normal tt.
Proof.
  intros R U N H. rewrite (run_with_url env r u R U N H). repeat split.
Qed.

Lemma checkout_navigates_once_witness :
  navigations
    (trace (handleStartTrial
              (envWith (Resolved (Some {| checkout_url := Some "https://pay.example/abc" |})))))
  = [HrefAssign "https://pay.example/abc"].
Proof.
  apply (checkout_navigates_once
           (envWith (Resolved (Some {| checkout_url := Some "https://pay.example/abc" |})))
           {| checkout_url := Some "https://pay.example/abc" |}
           "https://pay.example/abc");
    [reflexivity | reflexivity | discriminate | reflexivity].
Defined.

(** X2: one invocation of the handler issues exactly one request and
    ends in at most one of a navigation and a notification, never
    both and never two of either. *)
Theorem one_outcome_per_invocation (env : Env) :
  length (requests (trace (handleStartTrial env))) = 1 /\
  length (navigations (trace (handleStartTrial env)))
    + length (notifications (trace (handleStartTrial env))) <= 1.
Proof.
  split; [apply handler_issues_one_request|].
  js_cases env; cbn; lia.
Qed.

(** X3: the handler shows a notification (then exactly one) exactly
    when the request rejects, or resolves to a nullish value, or
    resolves with a non-empty checkout_url that the href setter
    refuses. *)
Theorem notification_iff_failure (env : Env) :
  length (notifications (trace (handleStartTrial env))) = 1 <->
  ((exists e, mutateAsync env (buildRequest env) = Rejected e) \/
   mutateAsync env (buildRequest env) = Resolved None \/
   (exists r u e,
      mutateAsync env (buildRequest env) = Resolved (Some r) /\
      checkout_url r = Some u /\ u <> "" /\ hrefSetter env u = Some e)).
Proof.
  js_unfold; cbn.
  destruct (mutateAsync env (buildRequest env)) as [[[[u|]]|]|err] eqn:M; cbn.
  - destruct (String.eqb_spec u "") as [Z|Z]; cbn.
    + split; [discriminate|].
      intros [[e H]|[H|(r & u' & e & H & U & N & _)]]; try discriminate.
      injection H as <-. cbn in U. injection U as <-. contradiction.
    + destruct (hrefSetter env u) as [e|] eqn:S; cbn.
      * split; [intros _|reflexivity].
        right; right. exists {| checkout_url := Some u |}, u, e. auto.
      * split; [discriminate|].
        intros [[e H]|[H|(r & u' & e & H & U & _ & S')]]; try discriminate.
        injection H as <-. cbn in U. injection U as <-. congruence.
  - split; [discriminate|].
    intros [[e H]|[H|(r & u' & e & H & U & _)]]; try discriminate.
    injection H as <-. discriminate.
  - split; [intros _; right; now left|reflexivity].
  - split; [intros _; left; now exists err|reflexivity].
Qed.

Lemma notification_iff_failure_witness :
  length (notifications (trace (handleStartTrial (envWith (Resolved None))))) = 1.
Proof.
  apply (proj2 (notification_iff_failure (envWith (Resolved None)))).
  right; left; reflexivity.
Defined.

(** X4: a failure after the request has succeeded is reported like a
    failed request.  A nullish result, or a href setter that throws,
    gives the console line and one notification carrying the thrown
    value's message (the fallback if it has none), and no navigation. *)
Theorem late_failures_are_reported (env : Env) :
  (mutateAsync env (buildRequest env) = Resolved None ->
   handleStartTrial env =
     ([StartTrialRequest (buildRequest env);
       ConsoleError "Failed to start trial:" (typeError env);
       ToastError (JS.orElse (message (typeError env))
                     "Failed to start trial. Please try again.")],
      Normal tt)) /\
  (forall r u e,
     mutateAsync env (buildRequest env) = Resolved (Some r) ->
     checkout_url r = Some u -> u <> "" ->
     hrefSetter env u = Some e ->
     handleStartTrial env =
       ([StartTrialRequest (buildRequest env);
         ConsoleError "Failed to start trial:" e;
         ToastError (JS.orElse (message e)
                       "Failed to start trial. Please try again.")],
        Normal tt)).
Proof.
  split.
  - intros R. js_unfold; cbn. rewrite R. reflexivity.
  - intros r u e R U N S. js_unfold; cbn. rewrite R; cbn. rewrite U; cbn.
    apply String.eqb_neq in N. rewrite N; cbn. rewrite S. reflexivity.
Qed.

Lemma late_failures_are_reported_witness :
  navigations
    (trace (handleStartTrial
              (envHrefThrows (Resolved (Some {| checkout_url := Some "http://" |}))
                             {| message := None |})))
  = [].
Proof.
  rewrite (proj2 (late_failures_are_reported
                    (envHrefThrows (Resolved (Some {| checkout_url := Some "http://" |}))
                                   {| message := None |}))
             {| checkout_url := Some "http://" |} "http://" {| message := None |}
             eq_refl eq_refl ltac:(discriminate) eq_refl).
  reflexivity.
Defined.

(** X5: a click on the page as rendered issues a Start Trial request
    exactly when no query is loading and the mutation is not pending,
    and then exactly one. *)
Theorem click_requests_when_ready (env : Env) (h : Hooks) :
  length (requests (trace (click env (render h)))) =
    if isLoading h || isPending h then 0 else 1.
Proof.
  unfold render. destruct (isLoading h); [reflexivity|].
  destruct (isPending h); [reflexivity|]. cbn [click orb].
  apply handler_issues_one_request.
Qed.

(** X6: the redirect does not replace the view.  On settled snapshots
    of an account with an active trial or a paid tier, the pass that
    pushes /dashboard still returns the trial offer with the start
    button enabled, and a click on it issues a Start Trial request. *)
Theorem offer_rendered_while_redirecting
    (env : Env) (sub : Subscription) (ts : TrialStatus) :
  hasActiveTrial ts || hasActiveSubscription sub = true ->
  ActivateTrialPage (settled sub ts false) =
    (TrialOffer false, [RouterPush "/dashboard"]) /\
  length (requests (trace (click env (render (settled sub ts false))))) = 1.
Proof.
  intros E. split.
  - unfold ActivateTrialPage, render, isLoading, gateEffect; cbn.
    now rewrite E.
  - apply handler_issues_one_request.
Qed.

Lemma offer_rendered_while_redirecting_witness :
  render (settled {| tier := Some {| name := "pro" |} |}
                  {| has_trial := false; trial_status := None |} false)
  = TrialOffer false.
Proof.
  apply (f_equal fst
           (proj1 (offer_rendered_while_redirecting
                     (envWith (Rejected {| message := None |}))
                     {| tier := Some {| name := "pro" |} |}
                     {| has_trial := false; trial_status := None |}
                     eq_refl))).
Defined.

(** X7: has_trial is consulted for the active status only.  With any
    other status the effect does the same whether or not a trial
    record exists; and an active status without a trial record, on an
    account without a paid tier, is offered the trial. *)
Theorem has_trial_matters_only_when_active
    (sub : Subscription) (st : option string) (b1 b2 pend : bool) :
  (JS.strictEq st "active" = false ->
   gateEffect (settled sub {| has_trial := b1; trial_status := st |} pend) =
   gateEffect (settled sub {| has_trial := b2; trial_status := st |} pend)) /\
  (hasActiveSubscription sub = false ->
   gateDecision (settled sub {| has_trial := false; trial_status := Some "active" |} pend)
   = OfferTrial).
Proof.
  split.
  - intros A. unfold gateEffect, hasActiveTrial, hasUsedTrial; cbn.
    rewrite A, !andb_false_r. reflexivity.
  - intros S. rewrite gateDecision_settled. unfold hasActiveTrial; cbn.
    now rewrite S.
Qed.

Lemma has_trial_matters_only_when_active_witness :
  gateDecision (settled {| tier := Some {| name := "free" |} |}
                        {| has_trial := false; trial_status := Some "active" |} false)
  = OfferTrial.
Proof.
  apply (proj2 (has_trial_matters_only_when_active
                  {| tier := Some {| name := "free" |} |} None true false false)).
  reflexivity.
Defined.

(** ** The app-profiles page *)

Module AppProfilesFacts.
Import AppProfiles.

(** X8: the feature-flag gate.  While the flag is loading the page
    shows its placeholder and does not redirect; afterwards it shows
    the connections exactly when the flag is enabled, and it replaces
    the route with /dashboard exactly when it renders nothing. *)
Theorem flag_gate (f : FeatureFlag) :
  AppProfilesPage f =
    (if flagLoading f then Placeholder
     else if customAgentsEnabled f then Connections else Nothing) /\
  flagEffect f =
    (match AppProfilesPage f with
     | Nothing => [RouterReplace "/dashboard"]
     | _ => []
     end).
Proof.
  unfold AppProfilesPage, flagEffect.
  destruct (flagLoading f), (customAgentsEnabled f); split; reflexivity.
Qed.

End AppProfilesFacts.

(** ** The profile image picker *)

Module PickerFacts.
Import Picker.
Local Open Scope picker_scope.

(** The size test of the upload handler against the limit in bytes. *)
Lemma size_check (f : File) :
  (maxImageSize <? size f)%N = negb (size f <=? 5242880)%N.
Proof. change maxImageSize with 5242880%N. apply N.ltb_antisym. Qed.

Section Upload.

Variables (props : Props) (env : Env) (f : File) (s : State).

Let request : Event :=
  Fetch "/api/agents/upload-profile-image"
    (FormData [("file", FileValue f); ("agent_id", TextValue (agentId props))]).

Let answer : FetchResult :=
  fetch env "/api/agents/upload-profile-image"
    (FormData [("file", FileValue f); ("agent_id", TextValue (agentId props))]).

Let stopped (v : JsStr) : State :=
  {| isOpen := isOpen s; selectedImage := v; aiPrompt := aiPrompt s;
     isGenerating := isGenerating s; isUploading := false |}.

Let failed (e : Thrown) : list Event * State * Completion unit :=
  ([request; ConsoleError "Upload error:" e;
    ToastError "Failed to upload image. Please try again."],
   stopped (selectedImage s), Normal tt).

(** Every run of the upload handler on a file that passes its checks. *)
Lemma upload_run :
  String.prefix "image/" (type f) = true ->
  (size f <=? 5242880)%N = true ->
  handleFileUpload props env (Some f) s =
    match answer with
    | FetchRejects e => failed e
    | FetchResponds false _ => failed (newError "Failed to upload image")
    | FetchResponds true (JsonRejects e) => failed e
    | FetchResponds true JsonNullish => failed (typeError env)
    | FetchResponds true (JsonObject v) =>
        ([request; ToastSuccess "Image uploaded successfully"], stopped v, Normal tt)
    end.
Proof.
  intros T Z. unfold handleFileUpload. rewrite T, size_check, Z. cbn [negb].
  subst answer failed stopped request. picker_unfold; cbn.
  destruct (fetch env _ _) as [e|[|] [e| |v]]; reflexivity.
Qed.

(** Every run on a file that fails one of the checks. *)
Lemma upload_refused :
  String.prefix "image/" (type f) && (size f <=? 5242880)%N = false ->
  handleFileUpload props env (Some f) s =
    ([ToastError (if String.prefix "image/" (type f)
                  then "Image size must be less than 5MB"
                  else "Please select an image file")], s, Normal tt).
Proof.
  intros A. unfold handleFileUpload. rewrite size_check.
  destruct (String.prefix "image/" (type f)); cbn in *; [|reflexivity].
  rewrite A. reflexivity.
Qed.

End Upload.

(** X9: the upload handler sends a request exactly for a file whose
    type starts with image/ and whose size is at most 5242880 bytes
    (the limit itself is accepted); the request is the single POST to
    the upload endpoint with the form entries file and agent_id, in
    that order. *)
Theorem upload_requested_iff_acceptable
    (props : Props) (env : Env) (f : File) (s : State) :
  fetches (events (handleFileUpload props env (Some f) s)) =
    if String.prefix "image/" (type f) && (size f <=? 5242880)%N then
      [Fetch "/api/agents/upload-profile-image"
         (FormData [("file", FileValue f); ("agent_id", TextValue (agentId props))])]
    else [].
Proof.
  destruct (String.prefix "image/" (type f) && (size f <=? 5242880)%N) eqn:A.
  - apply andb_true_iff in A as [T Z]. rewrite (upload_run props env f s T Z).
    destruct (fetch env _ _) as [e|[|] [e| |v]]; reflexivity.
  - rewrite (upload_refused props env f s A). reflexivity.
Qed.

(** X10: a file that fails a check changes nothing.  The handler shows
    one error toast, for the type when the type is wrong (also when
    the file is too large as well) and for the size otherwise, sends
    no request and leaves every state cell as it was. *)
Theorem refused_file_changes_nothing
    (props : Props) (env : Env) (f : File) (s : State) :
  String.prefix "image/" (type f) = false \/ (5242880 < size f)%N ->
  handleFileUpload props env (Some f) s =
    ([ToastError (if String.prefix "image/" (type f)
                  then "Image size must be less than 5MB"
                  else "Please select an image file")], s, Normal tt).
Proof.
  intros H. apply upload_refused. apply andb_false_iff.
  destruct H as [H|H]; [now left|right]. now apply N.leb_gt.
Qed.

Lemma refused_file_changes_nothing_witness :
  let f := {| type := "image/png"; size := 5242881 |} in
  let props := {| agentId := "a1"; currentImageUrl := Undefined |} in
  handleFileUpload props (envAnswering (FetchResponds true (JsonObject (Str "u"))))
    (Some f) (initialState props)
  = ([ToastError "Image size must be less than 5MB"], initialState props, Normal tt).
Proof.
  cbv zeta.
  apply (refused_file_changes_nothing
           {| agentId := "a1"; currentImageUrl := Undefined |}
           (envAnswering (FetchResponds true (JsonObject (Str "u"))))
           {| type := "image/png"; size := 5242881 |}
           (initialState {| agentId := "a1"; currentImageUrl := Undefined |})).
  right. reflexivity.
Defined.

(** X11: the upload handler never throws and never leaves the
    uploading flag set: whatever the request does, it completes
    normally with isUploading false when it started an upload, and it
    touches neither the popover, the prompt nor the generating flag. *)
Theorem upload_always_clears_flag
    (props : Props) (env : Env) (file : option File) (s : State) :
  let r := handleFileUpload props env file s in
  outcome r = Normal tt /\
  (fetches (events r) <> [] -> isUploading (final r) = false) /\
  (isUploading s = false -> isUploading (final r) = false) /\
  isOpen (final r) = isOpen s /\
  aiPrompt (final r) = aiPrompt s /\
  isGenerating (final r) = isGenerating s.
Proof.
  cbv zeta. destruct file as [f|]; [|now repeat split].
  destruct (String.prefix "image/" (type f) && (size f <=? 5242880)%N) eqn:A.
  - apply andb_true_iff in A as [T Z]. rewrite (upload_run props env f s T Z).
    destruct (fetch env _ _) as [e|[|] [e| |v]]; now repeat split.
  - rewrite (upload_refused props env f s A). repeat split; try easy.
Qed.

Lemma upload_always_clears_flag_witness :
  let props := {| agentId := "a1"; currentImageUrl := Undefined |} in
  isUploading
    (final (handleFileUpload props
              (envAnswering (FetchRejects {| message := Some "Failed to fetch" |}))
              (Some {| type := "image/png"; size := 10 |}) (initialState props)))
  = false.
Proof.
  cbv zeta.
  destruct (upload_always_clears_flag
              {| agentId := "a1"; currentImageUrl := Undefined |}
              (envAnswering (FetchRejects {| message := Some "Failed to fetch" |}))
              (Some {| type := "image/png"; size := 10 |})
              (initialState {| agentId := "a1"; currentImageUrl := Undefined |}))
    as (_ & _ & C & _).
  apply C. reflexivity.
Defined.

(** X12: an attempted upload ends in exactly one toast.  Only a
    response that is ok and whose body yields image_url selects that
    value and shows the success toast; a rejected fetch, a response
    that is not ok (its body is not read) or a body that cannot be
    read keeps the selection and shows the one generic error toast. *)
Theorem upload_selects_only_on_success
    (props : Props) (env : Env) (f : File) (s : State) :
  String.prefix "image/" (type f) = true ->
  (size f <= 5242880)%N ->
  let r := handleFileUpload props env (Some f) s in
  match fetch env "/api/agents/upload-profile-image"
          (FormData [("file", FileValue f); ("agent_id", TextValue (agentId props))]) with
  | FetchResponds true (JsonObject v) =>
      selectedImage (final r) = v /\
      toasts (events r) = [ToastSuccess "Image uploaded successfully"]
  | _ =>
      selectedImage (final r) = selectedImage s /\
      toasts (events r) = [ToastError "Failed to upload image. Please try again."]
  end.
Proof.
  intros T Z. apply N.leb_le in Z. cbv zeta.
  rewrite (upload_run props env f s T Z).
  destruct (fetch env _ _) as [e|[|] [e| |v]]; split; reflexivity.
Qed.

Lemma upload_selects_only_on_success_witness :
  let props := {| agentId := "a1"; currentImageUrl := Str "old" |} in
  selectedImage
    (final (handleFileUpload props
              (envAnswering (FetchResponds false (JsonObject (Str "new"))))
              (Some {| type := "image/png"; size := 5242880 |}) (initialState props)))
  = Str "old".
Proof.
  cbv zeta.
  apply (upload_selects_only_on_success
           {| agentId := "a1"; currentImageUrl := Str "old" |}
           (envAnswering (FetchResponds false (JsonObject (Str "new"))))
           {| type := "image/png"; size := 5242880 |}
           (initialState {| agentId := "a1"; currentImageUrl := Str "old" |})
           eq_refl).
  discriminate.
Defined.

Section Generate.

Variables (props : Props) (env : Env) (s : State).

Let request : Event :=
  Fetch "/api/agents/generate-profile-image"
    (JsonBody [("agent_id", agentId props); ("prompt", trim env (aiPrompt s))]).

Let answer : FetchResult :=
  fetch env "/api/agents/generate-profile-image"
    (JsonBody [("agent_id", agentId props); ("prompt", trim env (aiPrompt s))]).

Let failed (e : Thrown) : list Event * State * Completion unit :=
  ([request; ConsoleError "AI generation error:" e;
    ToastError "Failed to generate AI image. Please try again."],
   {| isOpen := isOpen s; selectedImage := selectedImage s; aiPrompt := aiPrompt s;
      isGenerating := false; isUploading := isUploading s |},
   Normal tt).

(** Every run of the generate handler on a prompt that is not blank. *)
Lemma generate_run :
  trim env (aiPrompt s) <> "" ->
  handleAIGenerate props env s =
    match answer with
    | FetchRejects e => failed e
    | FetchResponds false _ => failed (newError "Failed to generate image")
    | FetchResponds true (JsonRejects e) => failed e
    | FetchResponds true JsonNullish => failed (typeError env)
    | FetchResponds true (JsonObject v) =>
        ([request; ToastSuccess "AI image generated successfully"],
         {| isOpen := isOpen s; selectedImage := v; aiPrompt := "";
            isGenerating := false; isUploading := isUploading s |},
         Normal tt)
    end.
Proof.
  intros P. apply String.eqb_neq in P. unfold handleAIGenerate. rewrite P.
  subst answer failed request. picker_unfold; cbn.
  destruct (fetch env _ _) as [e|[|] [e| |v]]; reflexivity.
Qed.

End Generate.

(** X13: with a prompt that is empty after trimming, the generate
    handler only shows its error toast: no request is sent and no
    state cell changes. *)
Theorem generate_requires_prompt (props : Props) (env : Env) (s : State) :
  trim env (aiPrompt s) = "" ->
  handleAIGenerate props env s =
    ([ToastError "Please enter a description for the AI to generate an image"],
     s, Normal tt).
Proof.
  intros P. unfold handleAIGenerate. rewrite P. reflexivity.
Qed.

Lemma generate_requires_prompt_witness :
  let s := {| isOpen := true; selectedImage := Null; aiPrompt := "   ";
              isGenerating := false; isUploading := false |} in
  fetches
    (events (handleAIGenerate {| agentId := "a1"; currentImageUrl := Undefined |}
               (envAnswering (FetchResponds true (JsonObject (Str "u")))) s))
  = [].
Proof.
  cbv zeta.
  rewrite (generate_requires_prompt
             {| agentId := "a1"; currentImageUrl := Undefined |}
             (envAnswering (FetchResponds true (JsonObject (Str "u"))))
             {| isOpen := true; selectedImage := Null; aiPrompt := "   ";
                isGenerating := false; isUploading := false |}
             eq_refl).
  reflexivity.
Defined.

(** X14: with a prompt that is not blank, the generate handler sends
    exactly one request, the POST to the generate endpoint carrying
    agent_id and the trimmed prompt; whatever the request does, the
    handler completes normally with isGenerating false and leaves the
    popover and the uploading flag alone. *)
Theorem generate_sends_trimmed_prompt (props : Props) (env : Env) (s : State) :
  trim env (aiPrompt s) <> "" ->
  let r := handleAIGenerate props env s in
  fetches (events r) =
    [Fetch "/api/agents/generate-profile-image"
       (JsonBody [("agent_id", agentId props); ("prompt", trim env (aiPrompt s))])] /\
  outcome r = Normal tt /\
  isGenerating (final r) = false /\
  isOpen (final r) = isOpen s /\
  isUploading (final r) = isUploading s.
Proof.
  intros P. cbv zeta. rewrite (generate_run props env s P).
  destruct (fetch env _ _) as [e|[|] [e| |v]]; now repeat split.
Qed.

Lemma generate_sends_trimmed_prompt_witness :
  let s := {| isOpen := true; selectedImage := Null; aiPrompt := "  a blue robot ";
              isGenerating := false; isUploading := false |} in
  let props := {| agentId := "a1"; currentImageUrl := Undefined |} in
  fetches (events (handleAIGenerate props (envAnswering (FetchResponds false JsonNullish)) s))
  = [Fetch "/api/agents/generate-profile-image"
       (JsonBody [("agent_id", "a1"); ("prompt", "a blue robot")])].
Proof.
  cbv zeta.
  apply (generate_sends_trimmed_prompt
           {| agentId := "a1"; currentImageUrl := Undefined |}
           (envAnswering (FetchResponds false JsonNullish))
           {| isOpen := true; selectedImage := Null; aiPrompt := "  a blue robot ";
              isGenerating := false; isUploading := false |}).
  discriminate.
Defined.

(** X15: the prompt is cleared only by a successful generation.  A
    response that is ok and yields image_url selects it, shows the
    success toast and empties the prompt; any failure keeps both the
    selection and the prompt and shows the one generic error toast. *)
Theorem generate_keeps_prompt_on_failure (props : Props) (env : Env) (s : State) :
  trim env (aiPrompt s) <> "" ->
  let r := handleAIGenerate props env s in
  match fetch env "/api/agents/generate-profile-image"
          (JsonBody [("agent_id", agentId props); ("prompt", trim env (aiPrompt s))]) with
  | FetchResponds true (JsonObject v) =>
      selectedImage (final r) = v /\ aiPrompt (final r) = "" /\
      toasts (events r) = [ToastSuccess "AI image generated successfully"]
  | _ =>
      selectedImage (final r) = selectedImage s /\ aiPrompt (final r) = aiPrompt s /\
      toasts (events r) = [ToastError "Failed to generate AI image. Please try again."]
  end.
Proof.
  intros P. cbv zeta. rewrite (generate_run props env s P).
  destruct (fetch env _ _) as [e|[|] [e| |v]]; now repeat split.
Qed.

Lemma generate_keeps_prompt_on_failure_witness :
  let s := {| isOpen := true; selectedImage := Str "old"; aiPrompt := "a blue robot";
              isGenerating := false; isUploading := false |} in
  aiPrompt
    (final (handleAIGenerate {| agentId := "a1"; currentImageUrl := Str "old" |}
              (envAnswering (FetchRejects {| message := None |})) s))
  = "a blue robot".
Proof.
  cbv zeta.
  apply (generate_keeps_prompt_on_failure
           {| agentId := "a1"; currentImageUrl := Str "old" |}
           (envAnswering (FetchRejects {| message := None |}))
           {| isOpen := true; selectedImage := Str "old"; aiPrompt := "a blue robot";
              isGenerating := false; isUploading := false |}).
  discriminate.
Defined.

Lemma truthy_orNull (v : JsStr) : truthy (orNull v) = truthy v.
Proof. unfold orNull. destruct (truthy v) eqn:T; [exact T|reflexivity]. Qed.

(** X16: Reset brings back the selection the picker started with and
    empties the prompt.  The preview is then shown exactly when the
    current image URL is a non-empty string; the Apply button is then
    disabled for a non-empty current URL (and for null), but stays
    enabled when the prop is undefined or the empty string, because
    the selection is null and null === undefined is false. *)
Theorem apply_button_after_reset (props : Props) (s : State) :
  let s' := final (handleReset props s) in
  selectedImage s' = selectedImage (initialState props) /\
  aiPrompt s' = "" /\
  previewShown s' = truthy (currentImageUrl props) /\
  applyDisabled props s' =
    match currentImageUrl props with
    | Undefined => false
    | Null => true
    | Str u => negb (String.eqb u "")
    end.
Proof.
  cbv zeta. unfold handleReset, applyDisabled, previewShown, initialState.
  picker_unfold; cbn. repeat split; [apply truthy_orNull|].
  unfold orNull. destruct (currentImageUrl props) as [| |u]; cbn; try reflexivity.
  destruct (String.eqb u "") eqn:E; cbn; [reflexivity|apply String.eqb_refl].
Qed.

(** X17: Apply reports the selection as it stands and closes the
    popover.  After Remove it reports null; after Reset it reports the
    current image URL when that is a non-empty string, and null
    otherwise (never undefined or the empty string). *)
Theorem submit_reports_selection (props : Props) (s : State) :
  handleSubmit s =
    ([OnImageChange (selectedImage s)],
     final (setIsOpen false s), Normal tt) /\
  events ((handleRemove ;; handleSubmit) s) = [OnImageChange Null] /\
  isOpen (final ((handleRemove ;; handleSubmit) s)) = false /\
  events ((handleReset props ;; handleSubmit) s) =
    [OnImageChange (orNull (currentImageUrl props))] /\
  (orNull (currentImageUrl props) = Null \/
   truthy (orNull (currentImageUrl props)) = true).
Proof.
  unfold handleSubmit, handleRemove, handleReset. picker_unfold; cbn.
  repeat split. rewrite truthy_orNull. unfold orNull.
  destruct (truthy (currentImageUrl props)); [now right|now left].
Qed.

(** X18: a file selection uploads its first file only, through the
    upload handler; an empty selection does nothing, and no selection
    sends more than one request. *)
Theorem file_select_uploads_first (props : Props) (env : Env)
    (files : list File) (s : State) :
  handleFileSelect props env files s = handleFileUpload props env (hd_error files) s /\
  length (fetches (events (handleFileSelect props env files s))) <= 1 /\
  handleFileSelect props env [] s = ([], s, Normal tt).
Proof.
  assert (E : handleFileSelect props env files s
              = handleFileUpload props env (hd_error files) s)
    by (unfold handleFileSelect; destruct (hd_error files); reflexivity).
  split; [exact E|]. split; [|reflexivity]. rewrite E.
  destruct (hd_error files) as [f|]; [|cbn; lia].
  destruct (String.prefix "image/" (type f) && (size f <=? 5242880)%N) eqn:A.
  - apply andb_true_iff in A as [T Z]. rewrite (upload_run props env f s T Z).
    destruct (fetch env _ _) as [e|[|] [e| |v]]; cbn; lia.
  - rewrite (upload_refused props env f s A). cbn; lia.
Qed.

End PickerFacts.
